(** * magicbot.inject: extraction and resolution of injection requests

    A shallow embedding of [src/magicbot/inject.py].  The two functions of the
    module, [get_injection_requests] and [find_injections], are loops over the
    items of an insertion-ordered Python [dict]; they raise exceptions, call a
    handful of Python builtins on arbitrary objects and (the second one) write
    to the module's [logger].

    - Ordered dicts are association lists updated by [Dict.setitem]; the pool
      of injectables, which is only ever read with [.get], is a [gmap].
    - The builtins ([getattr], [hasattr], [isinstance], [type], [repr], [str])
      are an interface, [PyBuiltins]; [Builtin] is an instance with a few of
      Python's own classes and values, used to run the functions.
    - Exceptions are a [result]; the logger is threaded as explicit state and
      survives an exception. *)

From stdpp Require Import gmap strings list pretty.

Local Open Scope string_scope.

(** ** Exceptions *)

(** [class MagicInjectError(ValueError)] and the builtin [TypeError], each
    with its message. *)
Inductive exn : Type :=
| MagicInjectError (message : string)
| TypeError (message : string).

Inductive result (A : Type) : Type :=
| Return (a : A)
| Raise (e : exn).
Arguments Return {A} a.
Arguments Raise {A} e.

Definition is_return {A} (r : result A) : bool :=
  match r with Return _ => true | Raise _ => false end.

(** ** The Python builtins the module calls *)

Class PyBuiltins (obj : Type) : Type := {
  obj_eq_dec :: EqDecision obj;
  (** the singleton [None] *)
  PyNone : obj;
  (** [getattr(o, "__origin__", None)] *)
  getattr_origin : obj -> obj;
  (** [isinstance(o, type)] *)
  isinstance_type : obj -> bool;
  (** [isinstance(o, t)], which raises when [t] is no class *)
  isinstance : obj -> obj -> result bool;
  (** [hasattr(o, name)] *)
  hasattr : obj -> string -> bool;
  (** [type(o)] *)
  type_of : obj -> obj;
  (** [repr(o)], the [!r] conversion of an f-string *)
  repr : obj -> string;
  (** [str(o)], the default conversion of an f-string and of [%s] *)
  str : obj -> string
}.

(** [o is None] *)
Definition is_None `{PyBuiltins obj} (o : obj) : bool := bool_decide (o = PyNone).

(** [s.startswith(p)] *)
Definition startswith (s p : string) : bool := String.prefix p s.

(** ** Insertion-ordered dicts *)

Module Dict.

(** [d[k] = v]: an existing key keeps its place and takes the new value, a
    new key goes to the end. *)
Fixpoint setitem {V} (k : string) (v : V) (d : list (string * V)) : list (string * V) :=
  match d with
  | [] => [(k, v)]
  | (k', v') :: d' =>
      if decide (k = k') then (k', v) :: d' else (k', v') :: setitem k v d'
  end.

(** [d[k]], when the key is there. *)
Fixpoint lookup {V} (k : string) (d : list (string * V)) : option V :=
  match d with
  | [] => None
  | (k', v') :: d' => if decide (k = k') then Some v' else lookup k d'
  end.

(** [d.keys()] *)
Definition keys {V} (d : list (string * V)) : list string := d.*1.

End Dict.

(** [injectables.get(k)]: the value under [k], [None] when there is none. *)
Definition dict_get `{PyBuiltins obj} (d : gmap string obj) (k : string) : obj :=
  default PyNone (d !! k).

(** ** The module's logger *)

(** [logger = logging.getLogger(__name__)]: whether DEBUG records are enabled
    is configuration outside this module; [records] are the messages handed
    to the handlers so far. *)
Record logger : Type := Logger {
  debug_enabled : bool;
  records : list string
}.

(** [logger.debug(msg)], with the message already formatted. *)
Definition debug (message : string) (lg : logger) : logger :=
  if debug_enabled lg
  then Logger (debug_enabled lg) (records lg ++ [message])
  else lg.

(** ** The two functions *)

Section Inject.
Context {obj : Type} `{!PyBuiltins obj}.

(** The text appended to the message of a non-type annotation on an
    instantiated component (line 46). *)
Definition lone_annotation_guidance : string :=
  String (Ascii.ascii_of_nat 10)
    "Lone non-injection variable annotations are disallowed. Did you mean to assign a static variable?".

(** Lines 36-38: a generic alias stands for its [__origin__]. *)
Definition origin_type (inject_type : obj) : obj :=
  let origin := getattr_origin inject_type in
  if negb (is_None origin) then origin else inject_type.

(** The body of the [for] loop of [get_injection_requests] (lines 23-49),
    over the remaining items, with the dict [requests] built so far. *)
Fixpoint get_injection_requests_loop
    (items : list (string * obj)) (cname : string) (component : obj)
    (requests : list (string * obj)) : result (list (string * obj)) :=
  match items with
  | [] => Return requests
  | (n, inject_type) :: items =>
      if startswith n "_" then
        if is_None component then
          let message := "Cannot inject into component " ++ cname ++ " __init__ param " ++ n in
          Raise (MagicInjectError message)
        else get_injection_requests_loop items cname component requests
      else if negb (is_None component) && hasattr component n then
        get_injection_requests_loop items cname component requests
      else
        let origin := getattr_origin inject_type in
        let inject_type := if negb (is_None origin) then origin else inject_type in
        if negb (isinstance_type inject_type) then
          let message :=
            "Component " ++ cname ++ " has a non-type annotation " ++ n ++ ": "
              ++ repr inject_type in
          let message :=
            if negb (is_None component)
            then message ++ lone_annotation_guidance
            else message in
          Raise (TypeError message)
        else
          get_injection_requests_loop items cname component
            (Dict.setitem n inject_type requests)
  end.

(** The tests of lines 25 and 32: an entry under such a name never reaches
    the assignment of line 49. *)
Definition skipped (component : obj) (n : string) : bool :=
  startswith n "_" || (negb (is_None component) && hasattr component n).

(** [get_injection_requests(type_hints, cname, component)]; the default of
    [component] is [PyNone]. *)
Definition get_injection_requests
    (type_hints : list (string * obj)) (cname : string) (component : obj)
    : result (list (string * obj)) :=
  get_injection_requests_loop type_hints cname component [].

(** The body of the [for] loop of [find_injections] (lines 67-86). *)
Fixpoint find_injections_loop
    (items : list (string * obj)) (injectables : gmap string obj) (cname : string)
    (to_inject : list (string * obj)) (lg : logger)
    : result (list (string * obj)) * logger :=
  match items with
  | [] => (Return to_inject, lg)
  | (n, inject_type) :: items =>
      let injectable := dict_get injectables n in
      let injectable :=
        if is_None injectable
        then dict_get injectables (cname ++ "_" ++ n)
        else injectable in
      if is_None injectable then
        (Raise (MagicInjectError
                  ("Component " ++ cname ++ " has variable " ++ n ++ " (type "
                     ++ str inject_type ++ "), which is absent from robot")), lg)
      else
        match isinstance injectable inject_type with
        | Raise e => (Raise e, lg)
        | Return false =>
            (Raise (MagicInjectError
                      ("Component " ++ cname ++ " variable " ++ n
                         ++ " does not match type in robot! (Got "
                         ++ str (type_of injectable) ++ ", expected "
                         ++ str inject_type ++ ")")), lg)
        | Return true =>
            find_injections_loop items injectables cname
              (Dict.setitem n injectable to_inject)
              (debug ("-> " ++ cname ++ "." ++ n ++ " = " ++ str injectable) lg)
        end
  end.

(** Lines 68-71: the value the two lookups leave in [injectable]. *)
Definition found (injectables : gmap string obj) (cname n : string) : obj :=
  let injectable := dict_get injectables n in
  if is_None injectable
  then dict_get injectables (cname ++ "_" ++ n)
  else injectable.

(** Line 86: the record of a resolved request, formatted. *)
Definition trace_message (injectables : gmap string obj) (cname n : string) : string :=
  "-> " ++ cname ++ "." ++ n ++ " = " ++ str (found injectables cname n).

(** [find_injections(requests, injectables, cname)], run with the logger in
    state [lg]. *)
Definition find_injections
    (requests : list (string * obj)) (injectables : gmap string obj) (cname : string)
    (lg : logger) : result (list (string * obj)) * logger :=
  find_injections_loop requests injectables cname [] lg.

(** The call sequence of the module's callers: the requests extracted from
    the annotations are resolved against the pool. *)
Definition extract_then_resolve
    (type_hints : list (string * obj)) (cname : string) (component : obj)
    (injectables : gmap string obj) (lg : logger)
    : result (list (string * obj)) * logger :=
  match get_injection_requests type_hints cname component with
  | Raise e => (Raise e, lg)
  | Return requests => find_injections requests injectables cname lg
  end.

End Inject.

(** ** A universe of Python objects to run the functions on *)

Module Builtin.

(** Values of the builtin classes, class objects, [typing] aliases and
    instances of user classes.  A class is known by its qualified name and
    the names of the other classes of its [__mro__]; a float by its [repr];
    an instance by its class and the names [hasattr] finds on it. *)
Inductive value : Type :=
| VNone
| VBool (b : bool)
| VInt (z : Z)
| VFloat (literal : string)
| VStr (s : string)
| VClass (name : string) (bases : list string)
| VAlias (text : string) (origin : value)
| VObject (cls : string) (bases : list string) (attrs : list string).

#[global] Instance value_eq_dec : EqDecision value.
Proof.
  intros x y. unfold Decision.
  decide equality;
    solve [ apply (decide (_ = _)) | apply bool_eq_dec | apply Z.eq_dec ].
Defined.

Definition object_ : value := VClass "object" [].
Definition type_ : value := VClass "type" ["object"].
Definition NoneType : value := VClass "NoneType" ["object"].
Definition int_ : value := VClass "int" ["object"].
Definition bool_ : value := VClass "bool" ["int"; "object"].
Definition float_ : value := VClass "float" ["object"].
Definition str_ : value := VClass "str" ["object"].
Definition list_ : value := VClass "list" ["object"].
Definition GenericAlias : value := VClass "typing._GenericAlias" ["object"].

(** [typing.List[int]] *)
Definition List_int : value := VAlias "typing.List[int]" list_.

Definition class_of (v : value) : value :=
  match v with
  | VNone => NoneType
  | VBool _ => bool_
  | VInt _ => int_
  | VFloat _ => float_
  | VStr _ => str_
  | VClass _ _ => type_
  | VAlias _ _ => GenericAlias
  | VObject cls bases _ => VClass cls bases
  end.

(** The names of the classes of [type(v).__mro__]. *)
Definition mro_names (v : value) : list string :=
  match class_of v with
  | VClass name bases => name :: bases
  | _ => []
  end.

Definition value_isinstance (v t : value) : result bool :=
  match t with
  | VClass name _ => Return (bool_decide (name ∈ mro_names v))
  | _ => Raise (TypeError "isinstance() arg 2 must be a type, a tuple of types, or a union")
  end.

Definition value_repr (v : value) : string :=
  match v with
  | VNone => "None"
  | VBool b => if b then "True" else "False"
  | VInt z => pretty z
  | VFloat literal => literal
  | VStr s => "'" ++ s ++ "'"
  | VClass name _ => "<class '" ++ name ++ "'>"
  | VAlias text _ => text
  | VObject cls _ _ => "<" ++ cls ++ " object>"
  end.

Definition value_str (v : value) : string :=
  match v with
  | VStr s => s
  | _ => value_repr v
  end.

#[global] Instance builtins : PyBuiltins value := {
  PyNone := VNone;
  getattr_origin v := match v with VAlias _ origin => origin | _ => VNone end;
  isinstance_type v := match v with VClass _ _ => true | _ => false end;
  isinstance := value_isinstance;
  hasattr v name := match v with VObject _ _ attrs => bool_decide (name ∈ attrs) | _ => false end;
  type_of := class_of;
  repr := value_repr;
  str := value_str
}.

(** A component instance of class [Drivetrain] on which [gear] is set. *)
Definition drivetrain : value := VObject "Drivetrain" ["object"] ["gear"].

(** A logger with DEBUG enabled and nothing logged yet. *)
Definition verbose : logger := Logger true [].

End Builtin.

(** ** Facts about ordered dicts *)

Section DictFacts.
Context {V : Type}.
Implicit Types (d : list (string * V)) (k : string) (v : V).

Lemma setitem_fresh d k v :
  k ∉ Dict.keys d -> Dict.setitem k v d = (d ++ [(k, v)])%list.
Proof.
  unfold Dict.keys. induction d as [|[k' v'] d IH]; intros Hk; simpl; [done|].
  rewrite fmap_cons, not_elem_of_cons in Hk. destruct Hk as [Hne Hk].
  rewrite decide_False by done. by rewrite IH.
Qed.

Lemma lookup_setitem_eq d k v : Dict.lookup k (Dict.setitem k v d) = Some v.
Proof.
  induction d as [|[k' v'] d IH]; simpl.
  - by rewrite decide_True.
  - destruct (decide (k = k')) as [->|Hne]; simpl.
    + by rewrite decide_True.
    + by rewrite decide_False.
Qed.

Lemma lookup_setitem_ne d k k' v :
  k <> k' -> Dict.lookup k' (Dict.setitem k v d) = Dict.lookup k' d.
Proof.
  intros Hne. induction d as [|[k0 v0] d IH]; simpl.
  - by rewrite decide_False.
  - destruct (decide (k = k0)) as [->|Hk]; simpl.
    + by rewrite !decide_False.
    + destruct (decide (k' = k0)); [done|apply IH].
Qed.

Lemma elem_of_keys_setitem d k k' v :
  k' ∈ Dict.keys (Dict.setitem k v d) <-> k' = k \/ k' ∈ Dict.keys d.
Proof.
  unfold Dict.keys. induction d as [|[k0 v0] d IH]; simpl.
  - rewrite list_elem_of_singleton, elem_of_nil. tauto.
  - destruct (decide (k = k0)) as [->|Hk]; simpl.
    + rewrite !elem_of_cons. tauto.
    + rewrite !elem_of_cons, IH. tauto.
Qed.

Lemma Forall_setitem (P : string * V -> Prop) d k v :
  P (k, v) -> Forall P d -> Forall P (Dict.setitem k v d).
Proof.
  intros HP Hd. induction Hd as [|[k0 v0] d H0 Hd IH]; simpl.
  - by constructor.
  - destruct (decide (k = k0)) as [->|Hk]; by constructor.
Qed.

End DictFacts.

(** ** Facts about extraction *)

Section ExtractionFacts.
Context {obj : Type} `{!PyBuiltins obj}.
Implicit Types (items hints pre post acc : list (string * obj)).
Implicit Types (n cname : string) (t component : obj).

Lemma is_None_true (o : obj) : is_None o = true <-> o = PyNone.
Proof. unfold is_None. apply bool_decide_eq_true. Qed.

Lemma is_None_false (o : obj) : is_None o = false <-> o <> PyNone.
Proof. unfold is_None. apply bool_decide_eq_false. Qed.

(** Iterating over [pre ++ post] is iterating over [pre], then over [post]
    unless [pre] raised. *)
Lemma get_loop_app pre post cname component acc :
  get_injection_requests_loop (pre ++ post) cname component acc =
  match get_injection_requests_loop pre cname component acc with
  | Return r => get_injection_requests_loop post cname component r
  | Raise e => Raise e
  end.
Proof.
  revert acc. induction pre as [|[n t] pre IH]; intros acc; simpl; [done|].
  destruct (startswith n "_"), (is_None component); simpl; auto;
    try (destruct (hasattr component n); simpl; auto);
    destruct (isinstance_type _); simpl; auto.
Qed.

(** The two [continue] statements. *)
Lemma get_loop_skip n t items cname component acc :
  component <> PyNone ->
  startswith n "_" = true \/ hasattr component n = true ->
  get_injection_requests_loop ((n, t) :: items) cname component acc =
  get_injection_requests_loop items cname component acc.
Proof.
  intros Hlive%is_None_false Hskip. simpl. rewrite Hlive. simpl.
  destruct (startswith n "_"); [done|].
  destruct Hskip as [Hp | ->]; done.
Qed.

(** The assignment [requests[n] = inject_type]. *)
Lemma get_loop_request n t items cname component acc :
  startswith n "_" = false ->
  (component <> PyNone -> hasattr component n = false) ->
  isinstance_type (origin_type t) = true ->
  get_injection_requests_loop ((n, t) :: items) cname component acc =
  get_injection_requests_loop items cname component
    (Dict.setitem n (origin_type t) acc).
Proof.
  intros Hpub Hunset Htype. simpl. rewrite Hpub.
  fold (origin_type t). rewrite Htype. simpl.
  destruct (is_None component) eqn:Hc; simpl; [done|].
  apply is_None_false in Hc. by rewrite (Hunset Hc).
Qed.

(** The [raise TypeError(message)]. *)
Lemma get_loop_non_type n t items cname component acc :
  startswith n "_" = false ->
  (component <> PyNone -> hasattr component n = false) ->
  isinstance_type (origin_type t) = false ->
  get_injection_requests_loop ((n, t) :: items) cname component acc =
  let message :=
    "Component " ++ cname ++ " has a non-type annotation " ++ n ++ ": "
      ++ repr (origin_type t) in
  Raise (TypeError (if is_None component then message
                    else message ++ lone_annotation_guidance)).
Proof.
  intros Hpub Hunset Htype. simpl. rewrite Hpub.
  fold (origin_type t). rewrite Htype. simpl.
  destruct (is_None component) eqn:Hc; simpl; [done|].
  apply is_None_false in Hc. by rewrite (Hunset Hc).
Qed.

(** Only names that are neither private nor skipped become keys. *)
Lemma get_loop_keys items cname component acc requests k :
  get_injection_requests_loop items cname component acc = Return requests ->
  k ∈ Dict.keys requests ->
  k ∈ Dict.keys acc \/
  (k ∈ Dict.keys items /\ startswith k "_" = false /\
   (component <> PyNone -> hasattr component k = false)).
Proof.
  revert acc. induction items as [|[n t] items IH]; intros acc Hrun Hk.
  - simpl in Hrun. injection Hrun as <-. by left.
  - assert (Hcons : forall P : Prop, k ∈ Dict.keys items /\ P ->
              k ∈ Dict.keys ((n, t) :: items) /\ P).
    { intros P [Hin HP]. split; [|done]. unfold Dict.keys in *.
      rewrite fmap_cons. by apply elem_of_cons; right. }
    simpl in Hrun.
    destruct (startswith n "_") eqn:Hpriv.
    { destruct (is_None component); [done|].
      destruct (IH _ Hrun Hk) as [Hl | Hr]; auto. }
    destruct (is_None component) eqn:Hc; simpl in Hrun.
    + apply is_None_true in Hc.
      destruct (isinstance_type _); simpl in Hrun; [|done].
      destruct (IH _ Hrun Hk) as [Hacc | Hr]; auto.
      apply elem_of_keys_setitem in Hacc as [-> | Hr2]; auto.
      right. split; [|done]. unfold Dict.keys. rewrite fmap_cons.
      by apply elem_of_cons; left.
    + destruct (hasattr component n) eqn:Hset; simpl in Hrun.
      { destruct (IH _ Hrun Hk) as [Hl | Hr]; auto. }
      destruct (isinstance_type _); simpl in Hrun; [|done].
      destruct (IH _ Hrun Hk) as [Hacc | Hr]; auto.
      apply elem_of_keys_setitem in Hacc as [-> | Hr2]; auto.
      right. split; [|done]. unfold Dict.keys. rewrite fmap_cons.
      by apply elem_of_cons; left.
Qed.

(** With nothing to skip and nothing to reject, every entry is recorded, in
    order, under a new key. *)
Lemma get_loop_all_requests items cname component acc :
  NoDup (Dict.keys acc ++ Dict.keys items) ->
  (forall n t, (n, t) ∈ items -> startswith n "_" = false) ->
  (forall n t, (n, t) ∈ items -> component <> PyNone -> hasattr component n = false) ->
  (forall n t, (n, t) ∈ items -> isinstance_type (origin_type t) = true) ->
  get_injection_requests_loop items cname component acc =
  Return (acc ++ (prod_map id origin_type <$> items))%list.
Proof.
  revert acc. induction items as [|[n t] items IH]; intros acc Hnd Hpub Hunset Htype.
  - simpl. by rewrite app_nil_r.
  - rewrite get_loop_request by (first [eapply Hpub | eapply Hunset | eapply Htype]; left).
    assert (Hfresh : n ∉ Dict.keys acc).
    { apply NoDup_app in Hnd as (_ & Hdisj & _). intros Hin.
      apply (Hdisj _ Hin). unfold Dict.keys. rewrite fmap_cons. left. }
    rewrite (setitem_fresh _ _ _ Hfresh), IH.
    + rewrite fmap_cons. simpl. by rewrite <- app_assoc.
    + unfold Dict.keys in *. rewrite fmap_app, <- app_assoc. done.
    + intros ???. eapply Hpub. by right.
    + intros ???. eapply Hunset. by right.
    + intros ???. eapply Htype. by right.
Qed.

Lemma append_guidance_differs (message : string) :
  message ++ lone_annotation_guidance <> message.
Proof.
  induction message as [|c message IH]; simpl; [done|].
  intros Heq. injection Heq as Heq. by apply IH.
Qed.

End ExtractionFacts.

(** ** Facts about resolution *)

Section ResolutionFacts.
Context {obj : Type} `{!PyBuiltins obj}.
Implicit Types (items requests pre post acc : list (string * obj)).
Implicit Types (n cname : string) (t v : obj).
Implicit Types (injectables : gmap string obj) (lg : logger).

Lemma found_direct injectables cname n v :
  injectables !! n = Some v -> v <> PyNone -> found injectables cname n = v.
Proof.
  intros Hn Hv%is_None_false. unfold found, dict_get. rewrite Hn. simpl.
  by rewrite Hv.
Qed.

Lemma found_prefixed injectables cname n :
  dict_get injectables n = PyNone ->
  found injectables cname n = dict_get injectables (cname ++ "_" ++ n).
Proof.
  intros Hn. unfold found. rewrite Hn.
  by rewrite (proj2 (is_None_true PyNone) eq_refl).
Qed.

(** One iteration of the loop, by the value found. *)
Lemma find_loop_cons n t items injectables cname acc lg :
  find_injections_loop ((n, t) :: items) injectables cname acc lg =
  if is_None (found injectables cname n) then
    (Raise (MagicInjectError
              ("Component " ++ cname ++ " has variable " ++ n ++ " (type "
                 ++ str t ++ "), which is absent from robot")), lg)
  else
    match isinstance (found injectables cname n) t with
    | Raise e => (Raise e, lg)
    | Return false =>
        (Raise (MagicInjectError
                  ("Component " ++ cname ++ " variable " ++ n
                     ++ " does not match type in robot! (Got "
                     ++ str (type_of (found injectables cname n)) ++ ", expected "
                     ++ str t ++ ")")), lg)
    | Return true =>
        find_injections_loop items injectables cname
          (Dict.setitem n (found injectables cname n) acc)
          (debug ("-> " ++ cname ++ "." ++ n ++ " = " ++ str (found injectables cname n)) lg)
    end.
Proof. reflexivity. Qed.

Lemma find_loop_app pre post injectables cname acc lg :
  find_injections_loop (pre ++ post) injectables cname acc lg =
  match find_injections_loop pre injectables cname acc lg with
  | (Return r, lg1) => find_injections_loop post injectables cname r lg1
  | (Raise e, lg1) => (Raise e, lg1)
  end.
Proof.
  revert acc lg. induction pre as [|[n t] pre IH]; intros acc lg; [done|].
  rewrite <- app_comm_cons, !find_loop_cons.
  destruct (is_None _); [done|].
  destruct (isinstance _ _) as [[]|]; auto.
Qed.

(** The [raise] of line 75 ends the call where the logger stands. *)
Lemma find_loop_absent n t items injectables cname acc lg :
  found injectables cname n = PyNone ->
  find_injections_loop ((n, t) :: items) injectables cname acc lg =
  (Raise (MagicInjectError
            ("Component " ++ cname ++ " has variable " ++ n ++ " (type "
               ++ str t ++ "), which is absent from robot")), lg).
Proof. intros Hf%is_None_true. by rewrite find_loop_cons, Hf. Qed.

(** The [raise] of line 81. *)
Lemma find_loop_mismatch n t items injectables cname acc lg :
  found injectables cname n <> PyNone ->
  isinstance (found injectables cname n) t = Return false ->
  find_injections_loop ((n, t) :: items) injectables cname acc lg =
  (Raise (MagicInjectError
            ("Component " ++ cname ++ " variable " ++ n
               ++ " does not match type in robot! (Got "
               ++ str (type_of (found injectables cname n)) ++ ", expected "
               ++ str t ++ ")")), lg).
Proof. intros Hf%is_None_false Hi. by rewrite find_loop_cons, Hf, Hi. Qed.

(** The assignment of line 85 and the trace of line 86. *)
Lemma find_loop_resolved n t items injectables cname acc lg :
  found injectables cname n <> PyNone ->
  isinstance (found injectables cname n) t = Return true ->
  find_injections_loop ((n, t) :: items) injectables cname acc lg =
  find_injections_loop items injectables cname
    (Dict.setitem n (found injectables cname n) acc)
    (debug ("-> " ++ cname ++ "." ++ n ++ " = " ++ str (found injectables cname n)) lg).
Proof. intros Hf%is_None_false Hi. by rewrite find_loop_cons, Hf, Hi. Qed.

(** A name resolved once keeps its value: a later request for the same
    name finds the same injectable. *)
Lemma find_loop_lookup items injectables cname acc lg res lg' k :
  find_injections_loop items injectables cname acc lg = (Return res, lg') ->
  Dict.lookup k acc = Some (found injectables cname k) ->
  Dict.lookup k res = Some (found injectables cname k).
Proof.
  revert acc lg. induction items as [|[n t] items IH]; intros acc lg Hrun Hk.
  - simpl in Hrun. by injection Hrun as <- _.
  - rewrite find_loop_cons in Hrun.
    destruct (is_None _); [done|].
    destruct (isinstance _ _) as [[]|]; try done.
    apply (IH _ _ Hrun).
    destruct (decide (n = k)) as [->|Hne].
    + apply lookup_setitem_eq.
    + by rewrite lookup_setitem_ne.
Qed.

(** No value recorded is [None]. *)
Lemma find_loop_not_None items injectables cname acc lg res lg' :
  find_injections_loop items injectables cname acc lg = (Return res, lg') ->
  Forall (fun entry => entry.2 <> PyNone) acc ->
  Forall (fun entry => entry.2 <> PyNone) res.
Proof.
  revert acc lg. induction items as [|[n t] items IH]; intros acc lg Hrun Hacc.
  - simpl in Hrun. by injection Hrun as <- _.
  - rewrite find_loop_cons in Hrun.
    destruct (is_None _) eqn:Hf; [done|]. apply is_None_false in Hf.
    destruct (isinstance _ _) as [[]|]; try done.
    apply (IH _ _ Hrun). by apply Forall_setitem.
Qed.

(** The result does not depend on the logger. *)
Lemma find_loop_result_logger items injectables cname acc lg1 lg2 :
  (find_injections_loop items injectables cname acc lg1).1 =
  (find_injections_loop items injectables cname acc lg2).1.
Proof.
  revert acc lg1 lg2. induction items as [|[n t] items IH]; intros acc lg1 lg2; [done|].
  rewrite !find_loop_cons.
  destruct (is_None _); [done|].
  destruct (isinstance _ _) as [[]|]; auto.
Qed.

(** The logger is only appended to, and only when DEBUG is enabled. *)
Lemma find_loop_records items injectables cname acc :
  exists messages, forall lg,
    (find_injections_loop items injectables cname acc lg).2 =
    Logger (debug_enabled lg)
      (records lg ++ if debug_enabled lg then messages else []).
Proof.
  revert acc. induction items as [|[n t] items IH]; intros acc.
  - exists []. intros [[] recs]; simpl; by rewrite app_nil_r.
  - assert (Hstay : forall lg : logger,
              lg = Logger (debug_enabled lg)
                     (records lg ++ if debug_enabled lg then [] else [])).
    { intros [[] recs]; simpl; by rewrite app_nil_r. }
    destruct (is_None (found injectables cname n)) eqn:Hf.
    { exists []. intros lg. rewrite find_loop_cons, Hf. apply Hstay. }
    destruct (isinstance (found injectables cname n) t) as [[]|] eqn:Hi.
    + destruct (IH (Dict.setitem n (found injectables cname n) acc)) as [messages Hm].
      exists (("-> " ++ cname ++ "." ++ n ++ " = " ++ str (found injectables cname n))
                :: messages).
      intros lg. rewrite find_loop_cons, Hf, Hi, Hm.
      destruct lg as [[] recs]; unfold debug; simpl; [|done].
      by rewrite <- app_assoc.
    + exists []. intros lg. rewrite find_loop_cons, Hf, Hi. apply Hstay.
    + exists []. intros lg. rewrite find_loop_cons, Hf, Hi. apply Hstay.
Qed.

End ResolutionFacts.

(** ** Extraction: [get_injection_requests] *)

Section Extraction.
Context {obj : Type} `{!PyBuiltins obj}.
Implicit Types (hints pre post requests : list (string * obj)).
Implicit Types (n cname : string) (t component : obj).

(** C1.  When no annotation has a private name, none names an attribute the
    live component already has, and each is a type once a generic is
    replaced by its origin, extraction returns the annotations themselves,
    in their order, each under its origin type. *)
Theorem extraction_returns_all_requests hints cname component :
  NoDup (Dict.keys hints) ->
  (forall n t, (n, t) ∈ hints -> startswith n "_" = false) ->
  (forall n t, (n, t) ∈ hints -> component <> PyNone -> hasattr component n = false) ->
  (forall n t, (n, t) ∈ hints -> isinstance_type (origin_type t) = true) ->
  get_injection_requests hints cname component =
  Return (prod_map id origin_type <$> hints).
Proof.
  intros Hnd Hpub Hunset Htype. unfold get_injection_requests.
  by rewrite get_loop_all_requests.
Qed.

(** C6.  A private name ([_] first).  Without a live component extraction
    fails: always, and with the [MagicInjectError] that names the component
    and the parameter when the entries before it pass.  With a live
    component the entry is as good as not there, and its name is no key of
    the result. *)
Theorem private_name_rule pre n t post cname component :
  startswith n "_" = true ->
  (is_return (get_injection_requests (pre ++ (n, t) :: post) cname PyNone) = false /\
   forall requests,
     get_injection_requests pre cname PyNone = Return requests ->
     get_injection_requests (pre ++ (n, t) :: post) cname PyNone =
     Raise (MagicInjectError
              ("Cannot inject into component " ++ cname ++ " __init__ param " ++ n)))
  /\
  (component <> PyNone ->
   get_injection_requests (pre ++ (n, t) :: post) cname component =
   get_injection_requests (pre ++ post) cname component /\
   forall requests,
     get_injection_requests (pre ++ (n, t) :: post) cname component = Return requests ->
     n ∉ Dict.keys requests).
Proof.
  intros Hpriv. unfold get_injection_requests.
  assert (Hraise : forall acc,
    get_injection_requests_loop ((n, t) :: post) cname PyNone acc =
    Raise (MagicInjectError
             ("Cannot inject into component " ++ cname ++ " __init__ param " ++ n))).
  { intros acc. simpl. rewrite Hpriv.
    by rewrite (proj2 (is_None_true PyNone) eq_refl). }
  repeat split.
  - rewrite get_loop_app.
    destruct (get_injection_requests_loop pre cname PyNone []); [|done].
    by rewrite Hraise.
  - intros requests Hpre. by rewrite get_loop_app, Hpre, Hraise.
  - rewrite !get_loop_app.
    destruct (get_injection_requests_loop pre cname component []); [|done].
    apply get_loop_skip; auto.
  - intros requests Hrun Hin.
    destruct (get_loop_keys _ _ _ _ _ _ Hrun Hin) as [Hnil | (_ & Hpub & _)].
    + by apply elem_of_nil in Hnil.
    + congruence.
Qed.

(** C7, as the code has it.  An annotation that is no type once reduced to
    its origin, under a name that is not private and not already set on the
    live component, makes extraction raise [TypeError] when the entries
    before it pass.  The message names the component and the attribute;
    with a live component the guidance is appended to it, without one it is
    not, and the two messages differ. *)
Theorem non_type_annotation_rule pre n t post cname component requests :
  startswith n "_" = false ->
  (component <> PyNone -> hasattr component n = false) ->
  isinstance_type (origin_type t) = false ->
  get_injection_requests pre cname component = Return requests ->
  let message :=
    "Component " ++ cname ++ " has a non-type annotation " ++ n ++ ": "
      ++ repr (origin_type t) in
  get_injection_requests (pre ++ (n, t) :: post) cname component =
  Raise (TypeError (if is_None component then message
                    else message ++ lone_annotation_guidance))
  /\ message ++ lone_annotation_guidance <> message.
Proof.
  intros Hpub Hunset Htype Hpre message. split.
  - unfold get_injection_requests in *.
    rewrite get_loop_app, Hpre. by apply get_loop_non_type.
  - apply append_guidance_differs.
Qed.

(** C8.  A name the live component already has as an attribute: whatever
    its annotation is, the entry is as good as not there, and the name is
    no key of the result. *)
Theorem already_set_rule pre n t post cname component :
  component <> PyNone ->
  hasattr component n = true ->
  get_injection_requests (pre ++ (n, t) :: post) cname component =
  get_injection_requests (pre ++ post) cname component
  /\
  forall requests,
    get_injection_requests (pre ++ (n, t) :: post) cname component = Return requests ->
    n ∉ Dict.keys requests.
Proof.
  intros Hlive Hset. unfold get_injection_requests. split.
  - rewrite !get_loop_app.
    destruct (get_injection_requests_loop pre cname component []); [|done].
    apply get_loop_skip; auto.
  - intros requests Hrun Hin.
    destruct (get_loop_keys _ _ _ _ _ _ Hrun Hin) as [Hnil | (_ & _ & Hunset)].
    + by apply elem_of_nil in Hnil.
    + rewrite (Hunset Hlive) in Hset. done.
Qed.

End Extraction.

(** ** Resolution: [find_injections] *)

Section Resolution.
Context {obj : Type} `{!PyBuiltins obj}.
Implicit Types (pre post requests to_inject res : list (string * obj)).
Implicit Types (n cname : string) (t v : obj).
Implicit Types (injectables : gmap string obj) (lg : logger).

(** C2, as the code has it.  A request whose name is a key of the pool,
    with a value that is not [None] and is an instance of the requested
    type: once the requests before it are resolved, the value is recorded
    under the plain name, the trace is written and the loop goes on; and
    whenever the call returns, the result holds that value under that
    name. *)
Theorem direct_lookup_resolves pre n t post injectables cname v lg to_inject lg1 :
  injectables !! n = Some v ->
  v <> PyNone ->
  isinstance v t = Return true ->
  find_injections pre injectables cname lg = (Return to_inject, lg1) ->
  find_injections (pre ++ (n, t) :: post) injectables cname lg =
  find_injections_loop post injectables cname (Dict.setitem n v to_inject)
    (debug ("-> " ++ cname ++ "." ++ n ++ " = " ++ str v) lg1)
  /\
  forall res lg',
    find_injections (pre ++ (n, t) :: post) injectables cname lg = (Return res, lg') ->
    Dict.lookup n res = Some v.
Proof.
  intros Hn Hv Hinst Hpre. unfold find_injections in *.
  pose proof (found_direct _ cname _ _ Hn Hv) as Hf.
  rewrite find_loop_app, Hpre, find_loop_resolved by (rewrite Hf; done).
  rewrite Hf. split; [done|].
  intros res lg' Hrun. rewrite <- Hf.
  apply (find_loop_lookup _ _ _ _ _ _ _ _ Hrun).
  rewrite Hf. apply lookup_setitem_eq.
Qed.

(** C3, as the code has it.  A request whose name is no key of the pool
    while [cname_name] is, with a value that is not [None] and is an
    instance of the requested type: the value is recorded under the bare
    name, as in the direct case. *)
Theorem prefixed_lookup_resolves pre n t post injectables cname v lg to_inject lg1 :
  injectables !! n = None ->
  injectables !! (cname ++ "_" ++ n) = Some v ->
  v <> PyNone ->
  isinstance v t = Return true ->
  find_injections pre injectables cname lg = (Return to_inject, lg1) ->
  find_injections (pre ++ (n, t) :: post) injectables cname lg =
  find_injections_loop post injectables cname (Dict.setitem n v to_inject)
    (debug ("-> " ++ cname ++ "." ++ n ++ " = " ++ str v) lg1)
  /\
  forall res lg',
    find_injections (pre ++ (n, t) :: post) injectables cname lg = (Return res, lg') ->
    Dict.lookup n res = Some v.
Proof.
  intros Hn Hp Hv Hinst Hpre. unfold find_injections in *.
  assert (Hf : found injectables cname n = v).
  { rewrite found_prefixed; unfold dict_get; [by rewrite Hp | by rewrite Hn]. }
  rewrite find_loop_app, Hpre, find_loop_resolved by (rewrite Hf; done).
  rewrite Hf. split; [done|].
  intros res lg' Hrun. rewrite <- Hf.
  apply (find_loop_lookup _ _ _ _ _ _ _ _ Hrun).
  rewrite Hf. apply lookup_setitem_eq.
Qed.

(** C4.  A request whose name is a key of the pool neither bare nor
    prefixed.  The call fails whatever the other requests are; what it
    does, result and trace, is the same whatever requests come after it;
    and when the requests before it are resolved it raises the
    [MagicInjectError] of the absent injectable, with the logger as those
    requests left it. *)
Theorem absent_injectable_fails pre n t post injectables cname lg :
  injectables !! n = None ->
  injectables !! (cname ++ "_" ++ n) = None ->
  is_return (find_injections (pre ++ (n, t) :: post) injectables cname lg).1 = false
  /\
  (forall post',
     find_injections (pre ++ (n, t) :: post') injectables cname lg =
     find_injections (pre ++ (n, t) :: post) injectables cname lg)
  /\
  (forall to_inject lg1,
     find_injections pre injectables cname lg = (Return to_inject, lg1) ->
     find_injections (pre ++ (n, t) :: post) injectables cname lg =
     (Raise (MagicInjectError
               ("Component " ++ cname ++ " has variable " ++ n ++ " (type "
                  ++ str t ++ "), which is absent from robot")), lg1)).
Proof.
  intros Hn Hp. unfold find_injections.
  assert (Hf : found injectables cname n = PyNone).
  { rewrite found_prefixed; unfold dict_get; [by rewrite Hp | by rewrite Hn]. }
  repeat split.
  - rewrite find_loop_app.
    destruct (find_injections_loop pre _ _ _ _) as [[r|e] lg1]; [|done].
    by rewrite find_loop_absent.
  - intros post'. rewrite !find_loop_app.
    destruct (find_injections_loop pre _ _ _ _) as [[r|e] lg1]; [|done].
    by rewrite !find_loop_absent.
  - intros to_inject lg1 Hpre.
    by rewrite find_loop_app, Hpre, find_loop_absent.
Qed.

(** C5.  A request for which the lookups find a value that [isinstance]
    rejects: when the requests before it are resolved, the call raises the
    [MagicInjectError] whose message names the component, the attribute,
    the type of the value and the requested type.  [isinstance] is the
    builtin, so a value of a subclass passes; a float does not pass for a
    request declared [int]. *)
Theorem type_mismatch_fails :
  (forall pre n t post injectables cname v lg to_inject lg1,
     found injectables cname n = v ->
     v <> PyNone ->
     isinstance v t = Return false ->
     find_injections pre injectables cname lg = (Return to_inject, lg1) ->
     find_injections (pre ++ (n, t) :: post) injectables cname lg =
     (Raise (MagicInjectError
               ("Component " ++ cname ++ " variable " ++ n
                  ++ " does not match type in robot! (Got "
                  ++ str (type_of v) ++ ", expected " ++ str t ++ ")")), lg1))
  /\
  (forall n cname literal lg,
     find_injections [(n, Builtin.int_)] {[n := Builtin.VFloat literal]} cname lg =
     (Raise (MagicInjectError
               ("Component " ++ cname ++ " variable " ++ n
                  ++ " does not match type in robot! (Got <class 'float'>, expected <class 'int'>)")),
      lg))
  /\
  (forall n cname b lg,
     find_injections [(n, Builtin.int_)] {[n := Builtin.VBool b]} cname lg =
     (Return [(n, Builtin.VBool b)],
      debug ("-> " ++ cname ++ "." ++ n ++ " = " ++ str (Builtin.VBool b)) lg)).
Proof.
  repeat split.
  - intros pre n t post injectables cname v lg to_inject lg1 Hf Hv Hinst Hpre.
    unfold find_injections in *. subst v.
    by rewrite find_loop_app, Hpre, find_loop_mismatch.
  - intros n cname literal lg. unfold find_injections.
    assert (Hf : found ({[n := Builtin.VFloat literal]} : gmap string Builtin.value)
                   cname n = Builtin.VFloat literal).
    { apply found_direct; [apply lookup_singleton_eq | done]. }
    rewrite find_loop_mismatch; rewrite Hf; done.
  - intros n cname b lg. unfold find_injections.
    assert (Hf : found ({[n := Builtin.VBool b]} : gmap string Builtin.value)
                   cname n = Builtin.VBool b).
    { apply found_direct; [apply lookup_singleton_eq | done]. }
    rewrite find_loop_resolved; rewrite Hf; done.
Qed.

(** C10.  A request whose name is a key of the pool with the value [None].
    The value under the prefixed key is used in its place; if there is
    none, or it is [None] as well, the call raises the [MagicInjectError]
    of the absent injectable; and no call ever returns [None] for any
    request. *)
Theorem None_is_absent pre n t post injectables cname lg to_inject lg1 :
  injectables !! n = Some PyNone ->
  find_injections pre injectables cname lg = (Return to_inject, lg1) ->
  (forall v,
     injectables !! (cname ++ "_" ++ n) = Some v ->
     v <> PyNone ->
     isinstance v t = Return true ->
     find_injections (pre ++ (n, t) :: post) injectables cname lg =
     find_injections_loop post injectables cname (Dict.setitem n v to_inject)
       (debug ("-> " ++ cname ++ "." ++ n ++ " = " ++ str v) lg1))
  /\
  (dict_get injectables (cname ++ "_" ++ n) = PyNone ->
   find_injections (pre ++ (n, t) :: post) injectables cname lg =
   (Raise (MagicInjectError
             ("Component " ++ cname ++ " has variable " ++ n ++ " (type "
                ++ str t ++ "), which is absent from robot")), lg1))
  /\
  (forall requests lg0 res lg',
     find_injections requests injectables cname lg0 = (Return res, lg') ->
     Forall (fun entry => entry.2 <> PyNone) res).
Proof.
  intros Hn Hpre. unfold find_injections in *.
  assert (Hf : found injectables cname n = dict_get injectables (cname ++ "_" ++ n)).
  { apply found_prefixed. unfold dict_get. by rewrite Hn. }
  repeat split.
  - intros v Hp Hv Hinst.
    assert (Hfv : found injectables cname n = v).
    { rewrite Hf. unfold dict_get. by rewrite Hp. }
    rewrite find_loop_app, Hpre, find_loop_resolved by (rewrite Hfv; done).
    by rewrite Hfv.
  - intros Hp. rewrite find_loop_app, Hpre, find_loop_absent; [done|].
    by rewrite Hf.
  - intros requests lg0 res lg' Hrun.
    by apply (find_loop_not_None _ _ _ _ _ _ _ Hrun).
Qed.

(** C9.  Extraction followed by resolution gives a result that does not
    depend on the state of the logger, the only state the module has; a
    second call, made after the first one, gives the result of the first;
    and all a call does to the logger is append its trace when DEBUG is
    enabled. *)
Theorem extraction_then_resolution_deterministic
    (hints : list (string * obj)) cname (component : obj) injectables :
  (forall lg1 lg2,
     (extract_then_resolve hints cname component injectables lg1).1 =
     (extract_then_resolve hints cname component injectables lg2).1)
  /\
  (forall lg,
     (extract_then_resolve hints cname component injectables
        (extract_then_resolve hints cname component injectables lg).2).1 =
     (extract_then_resolve hints cname component injectables lg).1)
  /\
  (exists messages, forall lg,
     (extract_then_resolve hints cname component injectables lg).2 =
     Logger (debug_enabled lg)
       (records lg ++ if debug_enabled lg then messages else [])).
Proof.
  unfold extract_then_resolve.
  destruct (get_injection_requests hints cname component) as [requests|e].
  - unfold find_injections. repeat split.
    + intros lg1 lg2. apply find_loop_result_logger.
    + intros lg. apply find_loop_result_logger.
    + apply find_loop_records.
  - repeat split. exists []. intros [[] recs]; simpl; by rewrite app_nil_r.
Qed.

End Resolution.

(** ** The functions run on Python values *)

(** Decides a hypothesis over the entries of a literal dict. *)
Ltac each_entry :=
  let Hin := fresh "Hin" in
  let Heq := fresh "Heq" in
  intros ? ? Hin;
  repeat (apply elem_of_cons in Hin as [Heq | Hin];
          [injection Heq as -> ->; try intros _; reflexivity |]);
  by apply elem_of_nil in Hin.

Section Witnesses.
Import Builtin.

Lemma extraction_returns_all_requests_witness :
  get_injection_requests
    [("shooter", List_int); ("speed", float_)] "drivetrain" drivetrain =
  Return [("shooter", list_); ("speed", float_)].
Proof.
  refine (extraction_returns_all_requests
            [("shooter", List_int); ("speed", float_)] "drivetrain" drivetrain
            _ _ _ _).
  - by apply (bool_decide_unpack _).
  - each_entry.
  - each_entry.
  - each_entry.
Defined.

Lemma private_name_rule_witness :
  get_injection_requests [("speed", float_); ("_secret", int_)] "drivetrain" VNone =
  Raise (MagicInjectError "Cannot inject into component drivetrain __init__ param _secret")
  /\
  get_injection_requests [("speed", float_); ("_secret", int_)] "drivetrain" drivetrain =
  Return [("speed", float_)].
Proof.
  pose proof (private_name_rule [("speed", float_)] "_secret" int_ []
                "drivetrain" drivetrain eq_refl) as [[_ Hnone] Hlive].
  split.
  - exact (Hnone [("speed", float_)] eq_refl).
  - refine (proj1 (Hlive _)). discriminate.
Defined.

Lemma non_type_annotation_rule_witness :
  get_injection_requests [("speed", float_); ("arm", VInt 5)] "drivetrain" VNone =
  Raise (TypeError "Component drivetrain has a non-type annotation arm: 5")
  /\
  get_injection_requests [("speed", float_); ("arm", VInt 5)] "drivetrain" drivetrain =
  Raise (TypeError
           ("Component drivetrain has a non-type annotation arm: 5"
              ++ lone_annotation_guidance)).
Proof.
  split.
  - refine (proj1 (non_type_annotation_rule [("speed", float_)] "arm" (VInt 5) []
                     "drivetrain" VNone [("speed", float_)] eq_refl _ eq_refl eq_refl)).
    intros Hlive. by destruct Hlive.
  - exact (proj1 (non_type_annotation_rule [("speed", float_)] "arm" (VInt 5) []
                    "drivetrain" drivetrain [("speed", float_)]
                    eq_refl (fun _ => eq_refl) eq_refl eq_refl)).
Defined.

Lemma already_set_rule_witness :
  get_injection_requests [("speed", float_); ("gear", VInt 5)] "drivetrain" drivetrain =
  Return [("speed", float_)].
Proof.
  refine (proj1 (already_set_rule [("speed", float_)] "gear" (VInt 5) []
                   "drivetrain" drivetrain _ eq_refl)).
  discriminate.
Defined.

Lemma direct_lookup_resolves_witness :
  find_injections [("gyro", object_); ("speed", float_)]
    {["speed" := VFloat "3.5"; "gyro" := VInt 7]} "drivetrain" verbose =
  (Return [("gyro", VInt 7); ("speed", VFloat "3.5")],
   Logger true ["-> drivetrain.gyro = 7"; "-> drivetrain.speed = 3.5"]).
Proof.
  refine (proj1 (direct_lookup_resolves [("gyro", object_)] "speed" float_ []
                   {["speed" := VFloat "3.5"; "gyro" := VInt 7]} "drivetrain"
                   (VFloat "3.5") verbose [("gyro", VInt 7)]
                   (Logger true ["-> drivetrain.gyro = 7"])
                   eq_refl _ eq_refl eq_refl)).
  discriminate.
Defined.

Lemma prefixed_lookup_resolves_witness :
  find_injections [("speed", float_)]
    {["drivetrain_speed" := VFloat "3.5"]} "drivetrain" verbose =
  (Return [("speed", VFloat "3.5")], Logger true ["-> drivetrain.speed = 3.5"]).
Proof.
  refine (proj1 (prefixed_lookup_resolves [] "speed" float_ []
                   {["drivetrain_speed" := VFloat "3.5"]} "drivetrain"
                   (VFloat "3.5") verbose [] verbose
                   eq_refl eq_refl _ eq_refl eq_refl)).
  discriminate.
Defined.

Lemma absent_injectable_fails_witness :
  find_injections [("gyro", object_); ("speed", float_); ("arm", int_)]
    {["gyro" := VInt 7; "arm" := VInt 1]} "drivetrain" verbose =
  (Raise (MagicInjectError "Component drivetrain has variable speed (type <class 'float'>), which is absent from robot"),
   Logger true ["-> drivetrain.gyro = 7"]).
Proof.
  pose proof (absent_injectable_fails [("gyro", object_)] "speed" float_ [("arm", int_)]
                {["gyro" := VInt 7; "arm" := VInt 1]} "drivetrain" verbose
                eq_refl eq_refl) as (_ & _ & Hat).
  exact (Hat [("gyro", VInt 7)] (Logger true ["-> drivetrain.gyro = 7"]) eq_refl).
Defined.

Lemma type_mismatch_fails_witness :
  find_injections [("speed", int_)] {["speed" := VFloat "3.5"]} "drivetrain" verbose =
  (Raise (MagicInjectError
            "Component drivetrain variable speed does not match type in robot! (Got <class 'float'>, expected <class 'int'>)"),
   verbose).
Proof.
  refine (proj1 type_mismatch_fails [] "speed" int_ []
            {["speed" := VFloat "3.5"]} "drivetrain" (VFloat "3.5") verbose [] verbose
            eq_refl _ eq_refl eq_refl).
  discriminate.
Defined.

Lemma None_is_absent_witness :
  find_injections [("speed", float_)]
    {["speed" := VNone; "drivetrain_speed" := VFloat "3.5"]} "drivetrain" verbose =
  (Return [("speed", VFloat "3.5")], Logger true ["-> drivetrain.speed = 3.5"])
  /\
  find_injections [("speed", float_)] {["speed" := VNone]} "drivetrain" verbose =
  (Raise (MagicInjectError "Component drivetrain has variable speed (type <class 'float'>), which is absent from robot"),
   verbose).
Proof.
  split.
  - refine (proj1 (None_is_absent [] "speed" float_ []
                     {["speed" := VNone; "drivetrain_speed" := VFloat "3.5"]}
                     "drivetrain" verbose [] verbose eq_refl eq_refl)
              (VFloat "3.5") eq_refl _ eq_refl).
    discriminate.
  - exact (proj1 (proj2 (None_is_absent [] "speed" float_ []
                           {["speed" := VNone]}
                           "drivetrain" verbose [] verbose eq_refl eq_refl))
             eq_refl).
Defined.

End Witnesses.

(** ** Where a claim goes further than the code *)

Section Counterexamples.
Import Builtin.

(** C2 as stated: the name is a key of the pool and its value, [None], is
    an instance of the requested type [object]; the call raises. *)
Lemma direct_lookup_None_counterexample :
  let injectables : gmap string value := {["speed" := VNone]} in
  injectables !! "speed" = Some VNone /\
  isinstance VNone object_ = Return true /\
  find_injections [("speed", object_)] injectables "drivetrain" verbose =
  (Raise (MagicInjectError "Component drivetrain has variable speed (type <class 'object'>), which is absent from robot"),
   verbose).
Proof. by vm_compute. Qed.

(** C3 as stated: the bare name is no key, the prefixed one is, and its
    value, [None], is an instance of the requested type; the call raises. *)
Lemma prefixed_lookup_None_counterexample :
  let injectables : gmap string value := {["drivetrain_speed" := VNone]} in
  injectables !! "speed" = None /\
  injectables !! "drivetrain_speed" = Some VNone /\
  isinstance VNone object_ = Return true /\
  find_injections [("speed", object_)] injectables "drivetrain" verbose =
  (Raise (MagicInjectError "Component drivetrain has variable speed (type <class 'object'>), which is absent from robot"),
   verbose).
Proof. by vm_compute. Qed.

(** C7 as stated: the annotation [5] is no type, yet extraction raises no
    [TypeError] when its name is already set on the component or private. *)
Lemma non_type_annotation_counterexample :
  isinstance_type (origin_type (VInt 5)) = false /\
  get_injection_requests [("gear", VInt 5)] "drivetrain" drivetrain = Return [] /\
  get_injection_requests [("_gear", VInt 5)] "drivetrain" drivetrain = Return [] /\
  get_injection_requests [("_gear", VInt 5)] "drivetrain" VNone =
  Raise (MagicInjectError "Cannot inject into component drivetrain __init__ param _gear").
Proof. by vm_compute. Qed.

End Counterexamples.

(** ** More about extraction *)

Section ExtractionCases.
Context {obj : Type} `{!PyBuiltins obj}.
Implicit Types (items hints pre post acc requests : list (string * obj)).
Implicit Types (n cname : string) (t component : obj).

Lemma skipped_false_iff component n :
  skipped component n = false <->
  startswith n "_" = false /\ (component <> PyNone -> hasattr component n = false).
Proof.
  unfold skipped. destruct (startswith n "_"); simpl.
  { split; [done | by intros [? _]]. }
  destruct (is_None component) eqn:Hc; simpl.
  - apply is_None_true in Hc. split; [|done].
    intros _. split; [done|]. intros Hlive. by destruct Hlive.
  - apply is_None_false in Hc. split.
    + intros Hset. by split.
    + intros [_ Hset]. by apply Hset.
Qed.

Lemma get_loop_skipped n t items cname component acc :
  skipped component n = true ->
  component <> PyNone ->
  get_injection_requests_loop ((n, t) :: items) cname component acc =
  get_injection_requests_loop items cname component acc.
Proof.
  intros Hskip Hlive. apply get_loop_skip; [done|].
  unfold skipped in Hskip. apply is_None_false in Hlive as Hc.
  rewrite Hc in Hskip. by apply orb_true_iff in Hskip.
Qed.

(** What one entry does to the loop: the two [raise]s, the two [continue]s
    together, and the assignment. *)
Lemma get_loop_entry n t items cname component acc :
  (startswith n "_" = true /\ component = PyNone /\
   get_injection_requests_loop ((n, t) :: items) cname component acc =
   Raise (MagicInjectError
            ("Cannot inject into component " ++ cname ++ " __init__ param " ++ n)))
  \/
  (skipped component n = true /\ component <> PyNone /\
   get_injection_requests_loop ((n, t) :: items) cname component acc =
   get_injection_requests_loop items cname component acc)
  \/
  (skipped component n = false /\ isinstance_type (origin_type t) = false /\
   get_injection_requests_loop ((n, t) :: items) cname component acc =
   let message :=
     "Component " ++ cname ++ " has a non-type annotation " ++ n ++ ": "
       ++ repr (origin_type t) in
   Raise (TypeError (if is_None component then message
                     else message ++ lone_annotation_guidance)))
  \/
  (skipped component n = false /\ isinstance_type (origin_type t) = true /\
   get_injection_requests_loop ((n, t) :: items) cname component acc =
   get_injection_requests_loop items cname component
     (Dict.setitem n (origin_type t) acc)).
Proof.
  destruct (skipped component n) eqn:Hskip.
  - destruct (is_None component) eqn:Hc.
    + left. unfold skipped in Hskip. rewrite Hc in Hskip. simpl in Hskip.
      rewrite orb_false_r in Hskip. apply is_None_true in Hc as Hnone.
      repeat split; [done..|]. simpl. by rewrite Hskip, Hc.
    + right; left. apply is_None_false in Hc as Hlive.
      repeat split; [done|]. by apply get_loop_skipped.
  - apply skipped_false_iff in Hskip as Hcases. destruct Hcases as [Hpub Hunset].
    destruct (isinstance_type (origin_type t)) eqn:Htype.
    + do 3 right. repeat split. by apply get_loop_request.
    + do 2 right; left. repeat split. by apply get_loop_non_type.
Qed.

(** What a returning loop has built: the entries not skipped, in order. *)
Lemma get_loop_returns items cname component acc requests :
  NoDup (Dict.keys acc ++ Dict.keys items) ->
  get_injection_requests_loop items cname component acc = Return requests ->
  requests =
  (acc ++ (prod_map id origin_type
             <$> filter (fun entry => skipped component entry.1 = false) items))%list.
Proof.
  revert acc. induction items as [|[n t] items IH]; intros acc Hnd Hrun.
  - simpl in Hrun. injection Hrun as <-. simpl. by rewrite app_nil_r.
  - assert (Hnd' : NoDup (Dict.keys acc ++ Dict.keys items)).
    { unfold Dict.keys in *. rewrite fmap_cons in Hnd.
      apply NoDup_app in Hnd as (Hacc & Hdisj & Hitems).
      apply NoDup_cons in Hitems as [_ Hitems].
      apply NoDup_app. repeat split; [done| |done].
      intros k Hk Hin. apply (Hdisj k Hk). by right. }
    destruct (get_loop_entry n t items cname component acc)
      as [(_ & _ & Hstep) | [(Hskip & _ & Hstep) | [(_ & _ & Hstep) | (Hskip & _ & Hstep)]]];
      rewrite Hstep in Hrun; try done.
    + rewrite filter_cons_False by (simpl; by rewrite Hskip). by apply IH.
    + rewrite filter_cons_True by done.
      assert (Hfresh : n ∉ Dict.keys acc).
      { apply NoDup_app in Hnd as (_ & Hdisj & _). intros Hin.
        apply (Hdisj _ Hin). unfold Dict.keys. rewrite fmap_cons. left. }
      rewrite (setitem_fresh _ _ _ Hfresh) in Hrun.
      apply IH in Hrun.
      * rewrite Hrun, fmap_cons. simpl. by rewrite <- app_assoc.
      * unfold Dict.keys in *. rewrite fmap_app, <- app_assoc. done.
Qed.


(** Every request built is the origin of an annotation of that name, and a
    type. *)
Lemma get_loop_requests_types items cname component acc requests (P : string * obj -> Prop) :
  (forall n t, (n, t) ∈ items -> isinstance_type (origin_type t) = true ->
               P (n, origin_type t)) ->
  get_injection_requests_loop items cname component acc = Return requests ->
  Forall P acc -> Forall P requests.
Proof.
  revert acc. induction items as [|[n t] items IH]; intros acc HP Hrun Hacc.
  - simpl in Hrun. by injection Hrun as <-.
  - assert (HP' : forall n t, (n, t) ∈ items ->
                    isinstance_type (origin_type t) = true -> P (n, origin_type t)).
    { intros n' t' Hin. apply HP. by right. }
    destruct (get_loop_entry n t items cname component acc)
      as [(_ & _ & Hstep) | [(_ & _ & Hstep) | [(_ & _ & Hstep) | (_ & Htype & Hstep)]]];
      rewrite Hstep in Hrun; try done.
    + by apply (IH acc).
    + apply (IH _ HP' Hrun). apply Forall_setitem; [|done]. apply HP; [left|done].
Qed.


(** [cname] only goes into messages. *)
Lemma get_loop_cname items cname cname' component acc requests :
  get_injection_requests_loop items cname component acc = Return requests ->
  get_injection_requests_loop items cname' component acc = Return requests.
Proof.
  revert acc. induction items as [|[n t] items IH]; intros acc Hrun; [done|].
  destruct (get_loop_entry n t items cname component acc)
    as [(_ & _ & Hstep) | [(Hskip & Hlive & Hstep)
        | [(_ & _ & Hstep) | (Hskip & Htype & Hstep)]]];
    rewrite Hstep in Hrun; try done.
  - destruct (get_loop_entry n t items cname' component acc)
      as [(_ & Hnone & _) | [(_ & _ & Hstep') | [(Hskip' & _ & _) | (Hskip' & _ & _)]]];
      try congruence.
    rewrite Hstep'. by apply IH.
  - destruct (get_loop_entry n t items cname' component acc)
      as [(Hpriv & _ & _) | [(Hskip' & _ & _) | [(_ & Htype' & _) | (_ & _ & Hstep')]]];
      try congruence.
    + apply skipped_false_iff in Hskip as [Hpub _]. congruence.
    + rewrite Hstep'. by apply IH.
Qed.

End ExtractionCases.

(** ** More about resolution *)

Section ResolutionCases.
Context {obj : Type} `{!PyBuiltins obj}.
Implicit Types (items requests pre post acc res : list (string * obj)).
Implicit Types (n cname : string) (t v : obj).
Implicit Types (injectables : gmap string obj) (lg : logger).

(** What a returning loop has built: an entry for every request, in order. *)
Lemma find_loop_returns items injectables cname acc lg res lg' :
  NoDup (Dict.keys acc ++ Dict.keys items) ->
  find_injections_loop items injectables cname acc lg = (Return res, lg') ->
  res = (acc ++ ((fun entry => (entry.1, found injectables cname entry.1)) <$> items))%list.
Proof.
  revert acc lg. induction items as [|[n t] items IH]; intros acc lg Hnd Hrun.
  - simpl in Hrun. injection Hrun as <- _. simpl. by rewrite app_nil_r.
  - rewrite find_loop_cons in Hrun.
    destruct (is_None _); [done|].
    destruct (isinstance _ _) as [[]|]; try done.
    assert (Hfresh : n ∉ Dict.keys acc).
    { apply NoDup_app in Hnd as (_ & Hdisj & _). intros Hin.
      apply (Hdisj _ Hin). unfold Dict.keys. rewrite fmap_cons. left. }
    rewrite (setitem_fresh _ _ _ Hfresh) in Hrun.
    apply IH in Hrun.
    + rewrite Hrun, fmap_cons. simpl. by rewrite <- app_assoc.
    + unfold Dict.keys in *. rewrite fmap_app, <- app_assoc. done.
Qed.

(** When the loop returns: a value that is not [None] and an instance of the
    requested type is found for every request. *)
Lemma find_loop_returns_iff items injectables cname acc lg :
  is_return (find_injections_loop items injectables cname acc lg).1 = true <->
  forall n t, (n, t) ∈ items ->
    found injectables cname n <> PyNone /\
    isinstance (found injectables cname n) t = Return true.
Proof.
  revert acc lg. induction items as [|[n t] items IH]; intros acc lg.
  - simpl. split; [|done]. intros _ n t Hin. by apply elem_of_nil in Hin.
  - rewrite find_loop_cons.
    destruct (is_None (found injectables cname n)) eqn:Hf.
    { apply is_None_true in Hf. simpl. split; [done|]. intros Hall.
      destruct (Hall n t) as [Hnot _]; [left|]. done. }
    apply is_None_false in Hf.
    destruct (isinstance (found injectables cname n) t) as [[]|e] eqn:Hi.
    + rewrite IH. split.
      * intros Hall n' t' [Heq | Hin]%elem_of_cons; [|by apply Hall].
        by injection Heq as -> ->.
      * intros Hall n' t' Hin. apply Hall. by right.
    + simpl. split; [done|]. intros Hall.
      destruct (Hall n t) as [_ Hyes]; [left|]. congruence.
    + simpl. split; [done|]. intros Hall.
      destruct (Hall n t) as [_ Hyes]; [left|]. congruence.
Qed.

(** Every request has its value in a returned result. *)
Lemma find_loop_lookup_request items injectables cname acc lg res lg' n t :
  find_injections_loop items injectables cname acc lg = (Return res, lg') ->
  (n, t) ∈ items ->
  Dict.lookup n res = Some (found injectables cname n).
Proof.
  revert acc lg. induction items as [|[n0 t0] items IH]; intros acc lg Hrun Hin.
  - by apply elem_of_nil in Hin.
  - rewrite find_loop_cons in Hrun.
    destruct (is_None _); [done|].
    destruct (isinstance _ _) as [[]|]; try done.
    apply elem_of_cons in Hin as [Heq | Hin].
    + injection Heq as -> ->.
      apply (find_loop_lookup _ _ _ _ _ _ _ _ Hrun), lookup_setitem_eq.
    + by apply (IH _ _ Hrun).
Qed.

Lemma debug_records message lg :
  debug message lg =
  Logger (debug_enabled lg) (records lg ++ if debug_enabled lg then [message] else []).
Proof. destruct lg as [[] recs]; unfold debug; simpl; [done|]. by rewrite app_nil_r. Qed.

(** The trace of a returning loop: one record a request, in order. *)
Lemma find_loop_trace items injectables cname acc lg res lg' :
  find_injections_loop items injectables cname acc lg = (Return res, lg') ->
  lg' = Logger (debug_enabled lg)
          (records lg ++ if debug_enabled lg
                         then (fun entry => trace_message injectables cname entry.1) <$> items
                         else []).
Proof.
  revert acc lg. induction items as [|[n t] items IH]; intros acc lg Hrun.
  - simpl in Hrun. injection Hrun as _ <-.
    destruct lg as [[] recs]; simpl; by rewrite app_nil_r.
  - rewrite find_loop_cons in Hrun.
    destruct (is_None _); [done|].
    destruct (isinstance _ _) as [[]|]; try done.
    apply IH in Hrun. rewrite Hrun.
    destruct lg as [[] recs]; unfold debug; simpl; [|done].
    by rewrite <- app_assoc.
Qed.


(** The loop reads the pool through the two [.get] of each request only. *)
Lemma find_loop_pool items injectables injectables' cname acc lg :
  (forall n t, (n, t) ∈ items ->
     dict_get injectables n = dict_get injectables' n /\
     dict_get injectables (cname ++ "_" ++ n) = dict_get injectables' (cname ++ "_" ++ n)) ->
  find_injections_loop items injectables cname acc lg =
  find_injections_loop items injectables' cname acc lg.
Proof.
  revert acc lg. induction items as [|[n t] items IH]; intros acc lg Hsame; [done|].
  assert (Hf : found injectables cname n = found injectables' cname n).
  { unfold found. destruct (Hsame n t) as [-> ->]; [left|done]. }
  rewrite !find_loop_cons, <- Hf.
  destruct (is_None _); [done|].
  destruct (isinstance _ _) as [[]|]; try done.
  apply IH. intros n' t' Hin. apply (Hsame n' t'). by right.
Qed.

End ResolutionCases.

(** ** What extraction returns and when it raises *)

Section ExtractionResults.
Context {obj : Type} `{!PyBuiltins obj}.
Implicit Types (hints pre post requests : list (string * obj)).
Implicit Types (n cname : string) (t component : obj).

(** X1.  Whenever extraction returns, the result is the annotations whose
    names are neither private nor set on the live component, in their order,
    each under its origin type. *)
Theorem extraction_returns_unskipped hints cname component requests :
  NoDup (Dict.keys hints) ->
  get_injection_requests hints cname component = Return requests ->
  requests =
  prod_map id origin_type
    <$> filter (fun entry => skipped component entry.1 = false) hints.
Proof.
  intros Hnd Hrun. unfold get_injection_requests in Hrun.
  by apply get_loop_returns in Hrun.
Qed.


(** X3.  Every request extraction returns is a type, and is the origin type
    of an annotation of the same name. *)
Theorem extracted_requests_are_types hints cname component requests :
  get_injection_requests hints cname component = Return requests ->
  forall n t, (n, t) ∈ requests ->
    isinstance_type t = true /\
    exists annotation, (n, annotation) ∈ hints /\ t = origin_type annotation.
Proof.
  intros Hrun n t Hin. unfold get_injection_requests in Hrun.
  pose (P := fun entry : string * obj =>
               isinstance_type entry.2 = true /\
               exists annotation, (entry.1, annotation) ∈ hints /\
                                  entry.2 = origin_type annotation).
  assert (Hall : Forall P requests).
  { apply (get_loop_requests_types hints cname component [] requests P); [|done|done].
    intros n' t' Hin' Htype. split; [done|]. by exists t'. }
  rewrite Forall_forall in Hall. apply (Hall (n, t) Hin).
Qed.


(** X5.  The component name only goes into error messages: what extraction
    returns under one name it returns under any other. *)
Theorem extraction_ignores_cname hints cname cname' component requests :
  get_injection_requests hints cname component = Return requests ->
  get_injection_requests hints cname' component = Return requests.
Proof. apply get_loop_cname. Qed.

End ExtractionResults.

(** ** What resolution returns and when it raises *)

Section ResolutionResults.
Context {obj : Type} `{!PyBuiltins obj}.
Implicit Types (pre post requests to_inject res : list (string * obj)).
Implicit Types (n cname : string) (t v : obj).
Implicit Types (injectables : gmap string obj) (lg : logger).

(** X6.  Whenever resolution returns, the result has one entry for every
    request and no other, in the order of the requests, each holding the
    value the two lookups find for its name. *)
Theorem resolution_returns_every_request requests injectables cname lg res lg' :
  NoDup (Dict.keys requests) ->
  find_injections requests injectables cname lg = (Return res, lg') ->
  res = (fun entry => (entry.1, found injectables cname entry.1)) <$> requests.
Proof.
  intros Hnd Hrun. unfold find_injections in Hrun.
  by apply find_loop_returns in Hrun.
Qed.


(** X8.  In a returned result every request has its value under its name;
    the value is not [None] and is an instance of the requested type. *)
Theorem resolved_values_are_instances requests injectables cname lg res lg' :
  find_injections requests injectables cname lg = (Return res, lg') ->
  forall n t, (n, t) ∈ requests ->
    exists v, Dict.lookup n res = Some v /\ v <> PyNone /\ isinstance v t = Return true.
Proof.
  intros Hrun n t Hin. unfold find_injections in Hrun.
  exists (found injectables cname n). split.
  - by apply (find_loop_lookup_request _ _ _ _ _ _ _ _ t Hrun).
  - apply (proj1 (find_loop_returns_iff requests injectables cname [] lg)); [|done].
    by rewrite Hrun.
Qed.

(** X9.  A call that returns leaves one record a request in the log, in the
    order of the requests, when DEBUG is enabled, and leaves the logger as it
    was when not. *)
Theorem resolution_trace requests injectables cname lg res lg' :
  find_injections requests injectables cname lg = (Return res, lg') ->
  lg' = Logger (debug_enabled lg)
          (records lg ++ if debug_enabled lg
                         then (fun entry => trace_message injectables cname entry.1)
                                <$> requests
                         else []).
Proof. apply find_loop_trace. Qed.


(** X11.  Resolution reads the pool under the bare and the prefixed name of
    each request and nowhere else: two pools that give the same there give
    the same result and the same log. *)
Theorem resolution_reads_requested_keys requests injectables injectables' cname lg :
  (forall n t, (n, t) ∈ requests ->
     dict_get injectables n = dict_get injectables' n /\
     dict_get injectables (cname ++ "_" ++ n) = dict_get injectables' (cname ++ "_" ++ n)) ->
  find_injections requests injectables cname lg =
  find_injections requests injectables' cname lg.
Proof. apply find_loop_pool. Qed.

(** X12.  A key of the pool whose value is [None] is as good as no key, for
    any set of requests. *)
Theorem None_entry_is_no_entry requests injectables cname lg (k : string) :
  find_injections requests (<[k := PyNone]> injectables) cname lg =
  find_injections requests (delete k injectables) cname lg.
Proof.
  apply find_loop_pool. intros n t _.
  assert (Hget : forall k' : string,
            dict_get (<[k := PyNone]> injectables) k' = dict_get (delete k injectables) k').
  { intros k'. unfold dict_get. destruct (decide (k = k')) as [->|Hne].
    - by rewrite lookup_insert_eq, lookup_delete_eq.
    - by rewrite lookup_insert_ne, lookup_delete_ne. }
  by rewrite !Hget.
Qed.

End ResolutionResults.

(** ** Resolution of extracted requests *)

Section ExtractionThenResolution.
Context {obj : Type} `{!PyBuiltins obj}.
Implicit Types (hints requests res : list (string * obj)).
Implicit Types (n cname : string) (t component : obj).
Implicit Types (injectables : gmap string obj) (lg : logger).

Lemma NoDup_keys_unskipped hints (P : string * obj -> Prop)
    `{!forall entry, Decision (P entry)} (f : obj -> obj) :
  NoDup (Dict.keys hints) ->
  NoDup (Dict.keys (prod_map id f <$> filter P hints)).
Proof.
  unfold Dict.keys. induction hints as [|[n t] hints IH]; intros Hnd; [done|].
  rewrite fmap_cons in Hnd. apply NoDup_cons in Hnd as [Hfresh Hnd].
  destruct (decide (P (n, t))) as [HP | HP].
  - rewrite filter_cons_True, !fmap_cons by done. simpl.
    apply NoDup_cons. split; [|by apply IH].
    intros Hin. apply Hfresh.
    apply list_elem_of_fmap in Hin as ([n1 t1] & -> & Hin).
    apply list_elem_of_fmap in Hin as ([n2 t2] & [= -> ->] & Hin).
    apply list_elem_of_filter in Hin as [_ Hin].
    apply list_elem_of_fmap. by exists (n2, t2).
  - rewrite filter_cons_False by done. by apply IH.
Qed.

(** X13.  When the requests extracted from the annotations are resolved, the
    result has, in the order of the annotations, the names neither private
    nor set on the component, each with the value found for it; that value
    is not [None] and is an instance of the origin type of the annotation. *)
Theorem extracted_requests_resolve
    hints cname component injectables lg requests res lg' :
  NoDup (Dict.keys hints) ->
  get_injection_requests hints cname component = Return requests ->
  find_injections requests injectables cname lg = (Return res, lg') ->
  res = (fun entry => (entry.1, found injectables cname entry.1))
          <$> filter (fun entry => skipped component entry.1 = false) hints
  /\
  forall n t, (n, t) ∈ hints -> skipped component n = false ->
    found injectables cname n <> PyNone /\
    isinstance (found injectables cname n) (origin_type t) = Return true.
Proof.
  intros Hnd Hget Hfind. unfold get_injection_requests, find_injections in *.
  apply get_loop_returns in Hget; [|done]. simpl in Hget. subst requests. split.
  - apply find_loop_returns in Hfind; [|by apply NoDup_keys_unskipped].
    simpl in Hfind. rewrite Hfind, <- list_fmap_compose.
    apply list_fmap_ext. by intros i [n t] _.
  - intros n t Hin Hskip.
    assert (Hok : is_return (find_injections_loop
                               (prod_map id origin_type
                                  <$> filter (fun entry => skipped component entry.1 = false)
                                        hints)
                               injectables cname [] lg).1 = true)
      by (by rewrite Hfind).
    apply (proj1 (find_loop_returns_iff _ _ _ _ _) Hok n (origin_type t)).
    apply list_elem_of_fmap. exists (n, t). split; [done|].
    by apply list_elem_of_filter.
Qed.


End ExtractionThenResolution.

(** ** More runs on Python values *)

Section MoreWitnesses.
Import Builtin.

Lemma extraction_returns_unskipped_witness :
  get_injection_requests
    [("shooter", List_int); ("_state", VInt 0); ("gear", VInt 5); ("speed", float_)]
    "drivetrain" drivetrain =
  Return [("shooter", list_); ("speed", float_)]
  /\
  [("shooter", list_); ("speed", float_)] =
  prod_map id origin_type
    <$> filter (fun entry => skipped drivetrain entry.1 = false)
          [("shooter", List_int); ("_state", VInt 0); ("gear", VInt 5); ("speed", float_)].
Proof.
  split; [reflexivity|].
  refine (extraction_returns_unskipped
            [("shooter", List_int); ("_state", VInt 0); ("gear", VInt 5); ("speed", float_)]
            "drivetrain" drivetrain _ _ eq_refl).
  by apply (bool_decide_unpack _).
Defined.

Lemma extracted_requests_are_types_witness :
  isinstance_type list_ = true /\
  exists annotation,
    ("shooter", annotation) ∈ [("shooter", List_int); ("gear", VInt 5); ("speed", float_)]
    /\ list_ = origin_type annotation.
Proof.
  refine (extracted_requests_are_types
            [("shooter", List_int); ("gear", VInt 5); ("speed", float_)]
            "drivetrain" drivetrain [("shooter", list_); ("speed", float_)] eq_refl
            "shooter" list_ _).
  left.
Defined.


Lemma extraction_ignores_cname_witness :
  get_injection_requests
    [("shooter", List_int); ("gear", VInt 5); ("speed", float_)] "intake" drivetrain =
  Return [("shooter", list_); ("speed", float_)].
Proof.
  exact (extraction_ignores_cname
           [("shooter", List_int); ("gear", VInt 5); ("speed", float_)]
           "drivetrain" "intake" drivetrain [("shooter", list_); ("speed", float_)] eq_refl).
Defined.

Lemma resolution_returns_every_request_witness :
  [("gyro", VInt 7); ("speed", VFloat "3.5")] =
  (fun entry : string * value =>
     (entry.1, found {["drivetrain_speed" := VFloat "3.5"; "gyro" := VInt 7]}
                 "drivetrain" entry.1))
    <$> [("gyro", object_); ("speed", float_)].
Proof.
  refine (resolution_returns_every_request
            [("gyro", object_); ("speed", float_)]
            {["drivetrain_speed" := VFloat "3.5"; "gyro" := VInt 7]} "drivetrain" verbose
            [("gyro", VInt 7); ("speed", VFloat "3.5")]
            (Logger true ["-> drivetrain.gyro = 7"; "-> drivetrain.speed = 3.5"])
            _ eq_refl).
  by apply (bool_decide_unpack _).
Defined.

Lemma resolved_values_are_instances_witness :
  exists v, Dict.lookup "speed" [("gyro", VInt 7); ("speed", VFloat "3.5")] = Some v /\
            v <> PyNone /\ isinstance v float_ = Return true.
Proof.
  refine (resolved_values_are_instances
            [("gyro", object_); ("speed", float_)]
            {["drivetrain_speed" := VFloat "3.5"; "gyro" := VInt 7]} "drivetrain" verbose
            [("gyro", VInt 7); ("speed", VFloat "3.5")]
            (Logger true ["-> drivetrain.gyro = 7"; "-> drivetrain.speed = 3.5"])
            eq_refl "speed" float_ _).
  right. left.
Defined.

Lemma resolution_trace_witness :
  Logger true ["earlier"; "-> drivetrain.gyro = 7"; "-> drivetrain.speed = 3.5"] =
  Logger true
    (["earlier"]
       ++ ((fun entry : string * value =>
              trace_message {["drivetrain_speed" := VFloat "3.5"; "gyro" := VInt 7]}
                "drivetrain" entry.1)
             <$> [("gyro", object_); ("speed", float_)]))%list.
Proof.
  exact (resolution_trace
           [("gyro", object_); ("speed", float_)]
           {["drivetrain_speed" := VFloat "3.5"; "gyro" := VInt 7]} "drivetrain"
           (Logger true ["earlier"])
           [("gyro", VInt 7); ("speed", VFloat "3.5")]
           (Logger true ["earlier"; "-> drivetrain.gyro = 7"; "-> drivetrain.speed = 3.5"])
           eq_refl).
Defined.


Lemma resolution_reads_requested_keys_witness :
  find_injections [("gyro", object_); ("speed", float_)]
    {["speed" := VFloat "3.5"; "gyro" := VInt 7]} "drivetrain" verbose =
  find_injections [("gyro", object_); ("speed", float_)]
    {["speed" := VFloat "3.5"; "gyro" := VInt 7; "intake_speed" := VFloat "1.0";
      "arm" := VNone]} "drivetrain" verbose.
Proof.
  refine (resolution_reads_requested_keys
            [("gyro", object_); ("speed", float_)]
            {["speed" := VFloat "3.5"; "gyro" := VInt 7]}
            {["speed" := VFloat "3.5"; "gyro" := VInt 7; "intake_speed" := VFloat "1.0";
              "arm" := VNone]} "drivetrain" verbose _).
  intros n t Hin.
  repeat (apply elem_of_cons in Hin as [Heq | Hin];
          [injection Heq as -> ->; split; reflexivity |]).
  by apply elem_of_nil in Hin.
Defined.

Lemma extracted_requests_resolve_witness :
  [("shooter", VStr "flywheel"); ("speed", VFloat "3.5")] =
  (fun entry : string * value =>
     (entry.1, found {["drivetrain_speed" := VFloat "3.5"; "shooter" := VStr "flywheel"]}
                 "drivetrain" entry.1))
    <$> filter (fun entry => skipped drivetrain entry.1 = false)
          [("shooter", str_); ("_state", VInt 0); ("gear", VInt 5); ("speed", float_)].
Proof.
  refine (proj1 (extracted_requests_resolve
                   [("shooter", str_); ("_state", VInt 0); ("gear", VInt 5); ("speed", float_)]
                   "drivetrain" drivetrain
                   {["drivetrain_speed" := VFloat "3.5"; "shooter" := VStr "flywheel"]}
                   verbose
                   [("shooter", str_); ("speed", float_)]
                   [("shooter", VStr "flywheel"); ("speed", VFloat "3.5")]
                   (Logger true ["-> drivetrain.shooter = flywheel";
                                 "-> drivetrain.speed = 3.5"])
                   _ eq_refl eq_refl)).
  by apply (bool_decide_unpack _).
Defined.


End MoreWitnesses.
